(** * force_reverify.py: the retrying request executor and the main loop

    A shallow embedding of [src/force_reverify.py].  Seconds are modelled
    as exact rationals [Q] (the source uses Python floats; the places where
    a float conversion or [time.sleep] raises are written out); HTTP
    statuses as [Z]; header values as [string]s of 8-bit characters
    (requests decodes header values as latin-1).  The network is an oracle
    [net : nat -> outcome] indexed by the number of requests already issued
    by the current call of [_request_with_backoff], and the draws of
    [random.random()] are an oracle [rnd : nat -> Q] indexed the same way. *)

From Stdlib Require Import ZArith QArith Qminmax List String Ascii Bool Lia.
Import ListNotations.
Open Scope Z_scope.

(** ** Configuration (module-level knobs of the script) *)

Record config := mk_config {
  MAX_RETRIES : Z;   (* int(os.environ.get("MAX_RETRIES", "8")) *)
  BASE_BACKOFF : Q;  (* float(os.environ.get("BASE_BACKOFF", "1.0")) *)
  MAX_BACKOFF : Q    (* float(os.environ.get("MAX_BACKOFF", "60.0")) *)
}.

(** The values the script uses when the environment sets none of them. *)
Definition default_config : config := mk_config 8 1 60.

(** A computation that may raise an exception (named by a string). *)
Inductive raises (A : Type) := Ok (a : A) | Exn (name : string).
Arguments Ok {A}.
Arguments Exn {A}.

(** ** Python builtins used by the helpers *)

(** [min(a, b)]: keeps [a] unless [b < a]. *)
Definition py_min (a b : Q) : Q := if Qlt_le_dec b a then b else a.

(** [max(a, b)]: keeps [a] unless [a < b]. *)
Definition py_max (a b : Q) : Q := if Qlt_le_dec a b then b else a.

(** [random.uniform(a, b)] is [a + (b - a) * random()], with [random()]
    a draw [u] in [0, 1). *)
Definition uniform (a b u : Q) : Q := a + (b - a) * u.

(** [float(n)] for an [int] [n], as done by [float * int] and by formatting
    an [int] with [:.1f]: [n] is rounded to 53 bits (half to even) and
    [OverflowError] is raised when the result exceeds the largest double
    [2^1024 - 2^971], i.e. exactly when [|n| >= 2^1024 - 2^970]. *)
Definition FLOAT_INT_LIMIT : Z := 2 ^ 1024 - 2 ^ 970.

Definition int_fits_float (n : Z) : bool := Z.abs n <? FLOAT_INT_LIMIT.

(** [time.sleep(x)] converts [x] seconds to a signed 64-bit count of
    nanoseconds and raises [OverflowError] when it does not fit. *)
Definition sleep_fits (x : Q) : bool :=
  negb (Qle_bool (inject_Z (2 ^ 63)) (x * inject_Z (10 ^ 9))).

(** [int(s)] on a [str] in base 10.  Surrounding whitespace is stripped
    (the ASCII whitespace [\t \n \v \f \r] and space, and the latin-1
    characters NEL and NBSP, which CPython turns into spaces first), then an
    optional sign, then decimal digits with single underscores between
    digits.  Anything else raises [ValueError], modelled as [None]. *)
Definition is_py_space (c : ascii) : bool :=
  let n := nat_of_ascii c in
  ((9 <=? n)%nat && (n <=? 13)%nat) || (n =? 32)%nat || (n =? 133)%nat
  || (n =? 160)%nat.

Fixpoint lstrip (l : list ascii) : list ascii :=
  match l with
  | c :: r => if is_py_space c then lstrip r else l
  | [] => []
  end.

Definition strip (l : list ascii) : list ascii := rev (lstrip (rev (lstrip l))).

Definition digit_value (c : ascii) : option Z :=
  let n := nat_of_ascii c in
  if ((48 <=? n)%nat && (n <=? 57)%nat) then Some (Z.of_nat n - 48) else None.

(** [seen]: a digit has been read; [prev_us]: the last character was [_]. *)
Fixpoint parse_digits (l : list ascii) (acc : Z) (seen prev_us : bool)
  : option Z :=
  match l with
  | [] => if seen && negb prev_us then Some acc else None
  | c :: r =>
      match digit_value c with
      | Some d => parse_digits r (acc * 10 + d) true false
      | None =>
          if Ascii.eqb c "_"%char then
            if seen && negb prev_us then parse_digits r acc seen true else None
          else None
      end
  end.

(** The integer string conversion limit of CPython 3.10.7 and later
    ([sys.get_int_max_str_digits()], 4300 by default): a decimal string of
    more digits (the sign and the underscores not counted) raises
    [ValueError]. *)
Definition INT_MAX_STR_DIGITS : nat := 4300.

Definition count_digits (l : list ascii) : nat :=
  List.length (List.filter (fun c => match digit_value c with
                                     | Some _ => true
                                     | None => false
                                     end) l).

Definition parse_int_body (l : list ascii) : option Z :=
  if (count_digits l <=? INT_MAX_STR_DIGITS)%nat then parse_digits l 0 false false
  else None.

Definition py_int (s : string) : option Z :=
  match strip (list_ascii_of_string s) with
  | "-"%char :: r => option_map Z.opp (parse_int_body r)
  | "+"%char :: r => parse_int_body r
  | l => parse_int_body l
  end.

(** ** The helpers *)

Section Helpers.
Variable cfg : config.

(** [_sleep_with_jitter(seconds)] sleeps [random.uniform(0, max(0.0, seconds))];
    the function gives the duration to sleep for the draw [u]. *)
Definition _sleep_with_jitter (seconds u : Q) : Q :=
  uniform 0 (py_max 0 seconds) u.

(** The value of [min(MAX_BACKOFF, BASE_BACKOFF * (2 ** attempt))] when it
    is computed.  The product of a float and a power of two below [2^1024]
    is exact unless it overflows to [inf], and then [min] gives
    [MAX_BACKOFF], as the exact value does. *)
Definition backoff_value (attempt : nat) : Q :=
  py_min (MAX_BACKOFF cfg) (BASE_BACKOFF cfg * inject_Z (2 ^ Z.of_nat attempt)).

(** [_compute_backoff(attempt)]: [2 ** attempt] is an exact [int], which the
    float multiplication converts to a float first: from [attempt = 1024] on
    that raises [OverflowError]. *)
Definition _compute_backoff (attempt : nat) : raises Q :=
  if int_fits_float (2 ^ Z.of_nat attempt) then Ok (backoff_value attempt)
  else Exn "OverflowError".

End Helpers.

(** [_respect_retry_after(resp)]: [ra] is [resp.headers.get("Retry-After")]. *)
Definition _respect_retry_after (ra : option string) : option Z :=
  match ra with
  | None => None
  | Some s =>
      if String.eqb s "" then None            (* if not ra: return None *)
      else match py_int s with
           | Some v => Some (Z.max 0 v)         (* return max(0, int(ra)) *)
           | None => None                       (* except ValueError *)
           end
  end.

(** [r.raise_for_status()] of requests: raises [HTTPError] for a status in
    [400, 600), returns normally otherwise. *)
Definition raise_for_status (status : Z) : bool :=
  ((400 <=? status) && (status <? 500)) || ((500 <=? status) && (status <? 600)).

(** ** The executor [_request_with_backoff] *)

(** What one [S.request(...)] call does: raise one of the two caught
    transport exceptions, or return a response (its status and its
    [Retry-After] header, if any). *)
Inductive transport_error := ConnectionError | Timeout.

Inductive outcome :=
| Raised (e : transport_error)
| Response (status : Z) (retry_after : option string).

(** How a call of [_request_with_backoff] ends. *)
Inductive result :=
| Returned (status : Z) (retry_after : option string)  (* return r *)
| RaisedTransport (e : transport_error)                 (* raise *)
| RaisedHTTPError (status : Z)                          (* r.raise_for_status() *)
| RaisedOther (name : string).                          (* raised in the loop body *)

(** One call of [_sleep_with_jitter]: its argument and the time slept. *)
Record sleep := mk_sleep { sleep_wait : Q; sleep_slept : Q }.

Section Executor.
Variable cfg : config.
Variable net : nat -> outcome.
Variable rnd : nat -> Q.

(** Sleep the jittered [wait] after request [n], then go round the loop. *)
Definition backoff_sleep (trace : list sleep) (n : nat) (wait : Q) : list sleep :=
  trace ++ [mk_sleep wait (_sleep_with_jitter wait (rnd n))].

(** The [while True] loop.  [attempt] is the source's counter, [n] the
    number of requests issued so far (request [n] is answered by [net n]),
    [trace] the sleeps so far.  Each iteration costs one unit of [fuel];
    [None] means the fuel ran out before the loop left.  The [[BACKOFF]]
    lines are ASCII text written to stdout; formatting an [int] wait with
    [:.1f] converts it to a float (line 71). *)
Fixpoint loop (fuel attempt n : nat) (trace : list sleep)
  : option (result * nat * list sleep) :=
  match fuel with
  | O => None
  | S fuel' =>
      let exhausted := MAX_RETRIES cfg <=? Z.of_nat attempt in
      (* print(...); _sleep_with_jitter(wait); attempt += 1; continue *)
      let retry (wait : Q) :=
        if sleep_fits (_sleep_with_jitter wait (rnd n))
        then loop fuel' (S attempt) (S n) (backoff_sleep trace n wait)
        else Some (RaisedOther "OverflowError", S n, trace) in
      match net n with
      | Raised e =>
          if exhausted then Some (RaisedTransport e, S n, trace)
          else match _compute_backoff cfg attempt with      (* line 57 *)
               | Exn x => Some (RaisedOther x, S n, trace)
               | Ok wait => retry wait
               end
      | Response st ra =>
          if (200 <=? st) && (st <? 300) then Some (Returned st ra, S n, trace)
          else if (st =? 429) || (st =? 503) then
            (* line 68 computes the wait before the check of line 69 *)
            match _respect_retry_after ra with
            | Some r =>
                if exhausted && raise_for_status st
                then Some (RaisedHTTPError st, S n, trace)
                else if int_fits_float r then retry (inject_Z r)
                else Some (RaisedOther "OverflowError", S n, trace)
            | None =>
                match _compute_backoff cfg attempt with
                | Exn x => Some (RaisedOther x, S n, trace)
                | Ok wait =>
                    if exhausted && raise_for_status st
                    then Some (RaisedHTTPError st, S n, trace)
                    else retry wait
                end
            end
          else if (500 <=? st) && (st <? 600) then
            if exhausted && raise_for_status st
            then Some (RaisedHTTPError st, S n, trace)
            else match _compute_backoff cfg attempt with    (* line 79 *)
                 | Exn x => Some (RaisedOther x, S n, trace)
                 | Ok wait => retry wait
                 end
          else if raise_for_status st
          then Some (RaisedHTTPError st, S n, trace)
          else loop fuel' attempt (S n) trace
      end
  end.

(** [_request_with_backoff(method, url)]: the loop from [attempt = 0]. *)
Definition _request_with_backoff (fuel : nat) : option (result * nat * list sleep) :=
  loop fuel 0 0 [].

End Executor.

(** ** [main]

    The user records, the selection predicate [should_target] and the
    outcomes of the client operations and of the report lines are
    parameters: [list_users page] is the decoded batch of
    [list_users(FILTER, page=page)], or [None] when it raised (nothing in
    the scan catches it, so [main] dies with the exception); for the user at
    position [i] of [to_act], [deactivate_ok i] says whether the PUT of
    [deactivate_user(uid)] returned ([true]) or raised ([false]), and
    [print_ok i] whether its [[DRY]] or [[OK ]] line was written to stdout
    (a user name or e-mail the stdout encoding cannot represent raises
    [UnicodeEncodeError] there, inside the [try]).  The [[ERR]] line goes to
    stderr, whose error handler is [backslashreplace], and the other lines
    are ASCII. *)

(** A logical request of the directory client, as it reaches the executor. *)
Inductive call :=
| ListUsers (page : nat)          (* _request_with_backoff("GET", .../list/{filter}.json?page=n) *)
| DeactivateUser (uid : option Z). (* _request_with_backoff("PUT", .../{id}/deactivate.json) *)

Definition call_method (c : call) : string :=
  match c with
  | ListUsers _ => "GET"
  | DeactivateUser _ => "PUT"
  end.

(** [str.lower()] on the letters A-Z. *)
Definition ascii_lower (c : ascii) : ascii :=
  let n := nat_of_ascii c in
  if ((65 <=? n)%nat && (n <=? 90)%nat) then ascii_of_nat (n + 32) else c.

Definition py_lower (s : string) : string :=
  string_of_list_ascii (map ascii_lower (list_ascii_of_string s)).

(** [DRY_RUN = os.environ.get("DRY_RUN", "true").lower() == "true"]. *)
Definition dry_run_of_env (env : option string) : bool :=
  String.eqb (py_lower (match env with Some s => s | None => "true" end)) "true".

Inductive scan_end (user : Type) :=
| ScanCrashed (log : list call)
| ScanDone (page : nat) (to_act : list user) (log : list call).
Arguments ScanCrashed {user}.
Arguments ScanDone {user}.

(** How the process ends: an uncaught exception (the interpreter then exits
    with status 1), or [sys.exit(code)] / falling off [main] (code 0), with
    the counters and the client calls issued. *)
Inductive main_end :=
| Crashed (log : list call)
| Exited (code : Z) (acted failures : nat) (log : list call).

Definition main_log (e : main_end) : list call :=
  match e with Crashed log => log | Exited _ _ _ log => log end.

Section Main.
Variable user : Type.
Variable should_target : user -> bool.
Variable user_id : user -> option Z.          (* u.get("id") *)
Variable list_users : nat -> option (list user).
Variable deactivate_ok : nat -> bool.
Variable print_ok : nat -> bool.
Variable MAX_PAGES : Z.
Variable DRY_RUN : bool.
(** Both [DISCOURSE_BASE_URL] and [DISCOURSE_API_KEY] are in the environment. *)
Variable env_ok : bool.

(** [while page < MAX_PAGES: ...].  The fuel [k] starts at
    [Z.to_nat MAX_PAGES] and [page] grows by one per round, so the fuel
    lasts until the guard fails. *)
Fixpoint scan (k page : nat) (to_act : list user) (log : list call)
  : scan_end user :=
  match k with
  | O => ScanDone page to_act log
  | S k' =>
      if Z.of_nat page <? MAX_PAGES then
        let log := log ++ [ListUsers page] in
        match list_users page with
        | None => ScanCrashed log
        | Some [] => ScanDone page to_act log                     (* break *)
        | Some batch =>
            scan k' (S page) (to_act ++ filter should_target batch) log
        end
      else ScanDone page to_act log
  end.

(** [for u in to_act: try: ... except Exception: failures += 1]; [i] is
    the position of [u] in [to_act]. *)
Fixpoint act (i : nat) (to_act : list user) (acted failures : nat) (log : list call)
  : nat * nat * list call :=
  match to_act with
  | [] => (acted, failures, log)
  | u :: r =>
      if DRY_RUN then
        if print_ok i then act (S i) r acted failures log        (* print [DRY] *)
        else act (S i) r acted (S failures) log
      else
        let log := log ++ [DeactivateUser (user_id u)] in        (* deactivate_user(uid) *)
        if deactivate_ok i && print_ok i                         (* print [OK ] *)
        then act (S i) r (S acted) failures log                  (* acted += 1 *)
        else act (S i) r acted (S failures) log
  end.

Definition main : main_end :=
  if negb env_ok then Exited 2 0 0 []                     (* sys.exit(2) *)
  else
    match scan (Z.to_nat MAX_PAGES) 0 [] [] with
    | ScanCrashed log => Crashed log
    | ScanDone _ to_act log =>
        let '(acted, failures, log) := act 0 to_act 0 0 log in
        if Nat.eqb failures 0 then Exited 0 acted failures log
        else Exited 1 acted failures log                  (* sys.exit(1) *)
    end.

End Main.

(** * Properties *)

From Stdlib Require Import Lqa.
Open Scope string_scope.
Open Scope Z_scope.

(** ** Sanity checks of the model *)

Example py_int_plain : py_int "5" = Some 5.
Proof. reflexivity. Qed.
Example py_int_spaces_sign : py_int " -12 " = Some (-12).
Proof. reflexivity. Qed.
Example py_int_underscore : py_int "1_000" = Some 1000.
Proof. reflexivity. Qed.
Example py_int_rejects : py_int "1__0" = None /\ py_int "_1" = None
  /\ py_int "" = None /\ py_int "5.0" = None /\ py_int "- 5" = None.
Proof. repeat split; reflexivity. Qed.
Example py_int_digit_limit :
  py_int (string_of_list_ascii ("-"%char :: repeat "7"%char 4301)) = None
  /\ count_digits (list_ascii_of_string "-1_000") = 4%nat.
Proof. split; vm_compute; reflexivity. Qed.
Example retry_after_negative : _respect_retry_after (Some "-5") = Some 0.
Proof. reflexivity. Qed.
Example dry_run_values : dry_run_of_env (Some "TRUE") = true
  /\ dry_run_of_env (Some "false") = false /\ dry_run_of_env (Some "1") = false.
Proof. repeat split; reflexivity. Qed.
Example float_int_limit :
  int_fits_float (2 ^ 1024 - 2 ^ 971) = true /\ int_fits_float (2 ^ 1024 - 2 ^ 970) = false.
Proof. split; vm_compute; reflexivity. Qed.
Example compute_backoff_edge :
  _compute_backoff default_config 1023 = Ok 60%Q
  /\ _compute_backoff default_config 1024 = Exn "OverflowError".
Proof. split; vm_compute; reflexivity. Qed.

(** ** Executor lemmas *)

(** The statuses the loop retries on (when the budget is left). *)
Definition retryable (o : outcome) : bool :=
  match o with
  | Raised _ => true
  | Response st _ => (st =? 429) || (st =? 503) || ((500 <=? st) && (st <? 600))
  end.

(** The wait the loop computes after answer [o] at attempt [a] with the
    budget left (lines 57, 67-68 and 79), or the exception raised on the way
    to the sleep: [_compute_backoff] from attempt 1024 on, and the [:.1f]
    formatting of an [int] [Retry-After] too large for a float (line 71). *)
Definition wait_of (cfg : config) (o : outcome) (a : nat) : raises Q :=
  match o with
  | Response st ra =>
      if (st =? 429) || (st =? 503) then
        match _respect_retry_after ra with
        | Some r => if int_fits_float r then Ok (inject_Z r) else Exn "OverflowError"
        | None => _compute_backoff cfg a
        end
      else _compute_backoff cfg a
  | Raised _ => _compute_backoff cfg a
  end.

(** A wait whose jittered sleep always fits [time.sleep]: at most [2^63]
    nanoseconds. *)
Definition wait_sleepable (w : Q) : Prop :=
  (w * inject_Z (10 ^ 9) <= inject_Z (2 ^ 63))%Q.

(** How a call ends at request [n], when it ends there. *)
Definition result_fits (o : outcome) (r : result) : Prop :=
  match r with
  | Returned st ra => o = Response st ra /\ 200 <= st < 300
  | RaisedHTTPError st => (exists ra, o = Response st ra) /\ 400 <= st < 600
  | RaisedTransport e => o = Raised e
  | RaisedOther x => x = "OverflowError" /\ retryable o = true
  end.

Lemma not_exhausted (cfg : config) (a : nat) :
  Z.of_nat a < MAX_RETRIES cfg -> (MAX_RETRIES cfg <=? Z.of_nat a) = false.
Proof. intro H. apply Z.leb_gt. exact H. Qed.

Lemma exhausted (cfg : config) (a : nat) :
  MAX_RETRIES cfg <= Z.of_nat a -> (MAX_RETRIES cfg <=? Z.of_nat a) = true.
Proof. intro H. apply Z.leb_le. exact H. Qed.

Ltac zbool :=
  repeat match goal with
  | |- context [?x =? ?y] => destruct (Z.eqb_spec x y)
  | |- context [?x <=? ?y] => destruct (Z.leb_spec x y)
  | |- context [?x <? ?y] => destruct (Z.ltb_spec x y)
  end; simpl; try lia.

Lemma pow2_fits (a : nat) : int_fits_float (2 ^ Z.of_nat a) = (a <? 1024)%nat.
Proof.
  unfold int_fits_float, FLOAT_INT_LIMIT.
  rewrite Z.abs_eq by (apply Z.pow_nonneg; lia).
  destruct (Nat.ltb_spec a 1024) as [H | H].
  - apply Z.ltb_lt. apply Z.le_lt_trans with (2 ^ 1023).
    + apply Z.pow_le_mono_r; lia.
    + vm_compute. reflexivity.
  - apply Z.ltb_ge. apply Z.le_trans with (2 ^ 1024).
    + vm_compute. discriminate.
    + apply Z.pow_le_mono_r; lia.
Qed.

Lemma compute_backoff_ok (cfg : config) (a : nat) :
  (a < 1024)%nat -> _compute_backoff cfg a = Ok (backoff_value cfg a).
Proof.
  intro H. unfold _compute_backoff. rewrite pow2_fits.
  apply Nat.ltb_lt in H. rewrite H. reflexivity.
Qed.


Lemma compute_backoff_exn (cfg : config) (a : nat) (x : string) :
  _compute_backoff cfg a = Exn x -> x = "OverflowError".
Proof.
  unfold _compute_backoff. destruct (int_fits_float _); congruence.
Qed.

Lemma wait_of_exn (cfg : config) (o : outcome) (a : nat) (x : string) :
  wait_of cfg o a = Exn x -> x = "OverflowError".
Proof.
  unfold wait_of. destruct o as [e | st ra]; [apply compute_backoff_exn |].
  destruct (_ || _); [| apply compute_backoff_exn].
  destruct (_respect_retry_after ra) as [r |]; [| apply compute_backoff_exn].
  destruct (int_fits_float r); congruence.
Qed.

Lemma sleep_fits_jitter (w u : Q) :
  (0 <= u < 1)%Q -> wait_sleepable w -> sleep_fits (_sleep_with_jitter w u) = true.
Proof.
  intros [Hu0 Hu1] Hw. unfold sleep_fits, wait_sleepable in *.
  apply negb_true_iff. destruct (Qle_bool _ _) eqn:E; [| reflexivity].
  apply Qle_bool_iff in E. exfalso.
  assert (Hc : (0 < inject_Z (10 ^ 9))%Q) by (vm_compute; reflexivity).
  assert (HL : (0 < inject_Z (2 ^ 63))%Q) by (vm_compute; reflexivity).
  revert E Hw Hc HL. generalize (inject_Z (10 ^ 9)) (inject_Z (2 ^ 63)).
  intros c L E Hw Hc HL.
  unfold _sleep_with_jitter, uniform, py_max in E.
  destruct (Qlt_le_dec 0 w) as [Hpos | Hneg].
  - assert (Hx : (0 < w * c)%Q) by (apply Qmult_lt_0_compat; assumption).
    setoid_replace ((0 + (w - 0) * u) * c)%Q with ((w * c) * u)%Q in E by ring.
    nra.
  - setoid_replace ((0 + (0 - 0) * u) * c)%Q with 0%Q in E by ring. lra.
Qed.

Lemma backoff_value_le_max (cfg : config) (a : nat) :
  (backoff_value cfg a <= MAX_BACKOFF cfg)%Q.
Proof. unfold backoff_value, py_min. destruct (Qlt_le_dec _ _); lra. Qed.

Lemma backoff_sleepable (cfg : config) (a : nat) :
  wait_sleepable (MAX_BACKOFF cfg) -> wait_sleepable (backoff_value cfg a).
Proof.
  unfold wait_sleepable. intro H. eapply Qle_trans; [| exact H].
  apply Qmult_le_compat_r; [apply backoff_value_le_max | vm_compute; discriminate].
Qed.

Lemma retry_after_nonneg (ra : option string) (r : Z) :
  _respect_retry_after ra = Some r -> 0 <= r.
Proof.
  unfold _respect_retry_after. destruct ra as [s |]; [| discriminate].
  destruct (String.eqb s ""); [discriminate |].
  destruct (py_int s); [| discriminate]. intro H. injection H as <-. lia.
Qed.

Lemma sleepable_fits_float (r : Z) :
  0 <= r -> wait_sleepable (inject_Z r) -> int_fits_float r = true.
Proof.
  unfold wait_sleepable, int_fits_float, FLOAT_INT_LIMIT. intros H0 H.
  rewrite <- inject_Z_mult, <- Zle_Qle in H.
  assert (Hlt : 2 ^ 63 < 2 ^ 1024 - 2 ^ 970) by (vm_compute; reflexivity).
  assert (H9 : 1 <= 10 ^ 9) by (vm_compute; discriminate).
  apply Z.ltb_lt. rewrite Z.abs_eq by exact H0.
  revert H Hlt H9. generalize (2 ^ 63) (2 ^ 1024 - 2 ^ 970) (10 ^ 9).
  intros M L T H Hlt H9. nia.
Qed.

Section ExecutorFacts.
Variable cfg : config.
Variable net : nat -> outcome.
Variable rnd : nat -> Q.

(** One round on a retryable outcome with budget left: the wait, then a
    sleep and the next request with [attempt + 1], unless an
    [OverflowError] is raised on the way. *)
Lemma loop_step_retry (fuel a n : nat) (tr : list sleep) :
  retryable (net n) = true -> Z.of_nat a < MAX_RETRIES cfg ->
  loop cfg net rnd (S fuel) a n tr
  = match wait_of cfg (net n) a with
    | Exn x => Some (RaisedOther x, S n, tr)
    | Ok w => if sleep_fits (_sleep_with_jitter w (rnd n))
              then loop cfg net rnd fuel (S a) (S n) (backoff_sleep rnd tr n w)
              else Some (RaisedOther "OverflowError", S n, tr)
    end.
Proof.
  intros Hr Ha. simpl. rewrite (not_exhausted cfg a Ha).
  destruct (net n) as [e | st ra]; simpl in *;
    [destruct (_compute_backoff cfg a); reflexivity |].
  revert Hr. zbool; try discriminate; intros _;
    destruct (_respect_retry_after ra) as [r |];
    try destruct (int_fits_float r); destruct (_compute_backoff cfg a); reflexivity.
Qed.

Ltac finish_case :=
  first
  [ left; eexists; split; [reflexivity |];
    simpl; repeat split; first [reflexivity | lia | eexists; reflexivity | zbool]
  | right; right; split; [eexists _, _; split; [reflexivity | lia] | reflexivity] ].

(** Every round either ends the call at request [n] with an outcome that
    fits its answer, or sleeps [wait_of] and retries with [attempt + 1], or
    (on a status that is neither 2xx, 4xx nor 5xx) issues the request again
    with the same [attempt]. *)
Lemma loop_cases (fuel a n : nat) (tr : list sleep) :
  (exists r, loop cfg net rnd (S fuel) a n tr = Some (r, S n, tr)
             /\ result_fits (net n) r)
  \/ (Z.of_nat a < MAX_RETRIES cfg /\ retryable (net n) = true
      /\ exists w, wait_of cfg (net n) a = Ok w
             /\ loop cfg net rnd (S fuel) a n tr
                = loop cfg net rnd fuel (S a) (S n) (backoff_sleep rnd tr n w))
  \/ ((exists st ra, net n = Response st ra /\ ~ (200 <= st < 300 \/ 400 <= st < 600))
      /\ loop cfg net rnd (S fuel) a n tr = loop cfg net rnd fuel a (S n) tr).
Proof.
  destruct (Z.ltb_spec (Z.of_nat a) (MAX_RETRIES cfg)) as [Ha | Ha].
  - destruct (retryable (net n)) eqn:Hr.
    + rewrite (loop_step_retry fuel a n tr Hr Ha).
      destruct (wait_of cfg (net n) a) as [w | x] eqn:Hw.
      * destruct (sleep_fits _).
        -- right; left. split; [exact Ha | split; [first [exact Hr | reflexivity] |]].
           exists w. split; reflexivity.
        -- left. eexists. split; [reflexivity |]. simpl. split; [reflexivity | first [exact Hr | reflexivity]].
      * left. eexists. split; [reflexivity |]. simpl.
        split; [eapply wait_of_exn; exact Hw | first [exact Hr | reflexivity]].
    + simpl. rewrite (not_exhausted cfg a Ha).
      destruct (net n) as [e | st ra]; [discriminate |].
      simpl in Hr. revert Hr. unfold raise_for_status. zbool; try discriminate;
        intros _; finish_case.
  - simpl. rewrite (exhausted cfg a Ha).
    destruct (net n) as [e | st ra].
    + left. eexists. split; reflexivity.
    + unfold raise_for_status. zbool;
        try (destruct (_respect_retry_after ra) as [r |];
             [| destruct (_compute_backoff cfg a) as [w | x] eqn:Hx;
                [| left; eexists; split; [reflexivity |]; simpl;
                   split; [eapply compute_backoff_exn; exact Hx | zbool]]]);
        finish_case.
Qed.


End ExecutorFacts.

(** ** Fixed test networks *)

Definition net_always (o : outcome) : nat -> outcome := fun _ => o.

(** A 304 then a 200. *)
Definition net_304_then_200 (n : nat) : outcome :=
  match n with O => Response 304 None | _ => Response 200 None end.




Definition rnd_zero : nat -> Q := fun _ => 0%Q.

Definition rnd_half : nat -> Q := fun _ => (1 # 2)%Q.

Definition config_2 : config := mk_config 2 1 10.


(** A 404 ends the call at once with the status error, after one request. *)
Lemma fatal_404_one_attempt (cfg : config) (rnd : nat -> Q) (fuel : nat) :
  _request_with_backoff cfg (net_always (Response 404 None)) rnd (S fuel)
  = Some (RaisedHTTPError 404, 1%nat, []).
Proof. reflexivity. Qed.

(** Any 4xx other than 429 ends the call at the first request. *)
Lemma fatal_4xx_one_attempt (cfg : config) (net : nat -> outcome) (rnd : nat -> Q)
  (fuel : nat) (st : Z) (ra : option string) :
  net 0%nat = Response st ra -> 400 <= st < 500 -> st <> 429 ->
  _request_with_backoff cfg net rnd (S fuel) = Some (RaisedHTTPError st, 1%nat, []).
Proof.
  intros Hn Hst H429. unfold _request_with_backoff. simpl. rewrite Hn.
  assert (E1 : (200 <=? st) && (st <? 300) = false) by zbool.
  assert (E2 : (st =? 429) || (st =? 503) = false) by zbool.
  assert (E3 : (500 <=? st) && (st <? 600) = false) by zbool.
  assert (E4 : raise_for_status st = true) by (unfold raise_for_status; zbool).
  rewrite E1, E2, E3, E4. reflexivity.
Qed.

(** ** C1 *)

(** C1 (code_bug): the loop does not always terminate.  When every request
    answers 304 (a 3xx response requests does not follow), line 86's
    [r.raise_for_status()] returns normally, the body of [while True] ends
    and the request is issued again with the same [attempt]: whatever the
    fuel, the call never returns or raises. *)
Theorem request_304_forever (cfg : config) (rnd : nat -> Q) (fuel : nat) :
  _request_with_backoff cfg (net_always (Response 304 None)) rnd fuel = None.
Proof.
  unfold _request_with_backoff.
  enough (H : forall a n tr,
             loop cfg (net_always (Response 304 None)) rnd fuel a n tr = None)
    by apply H.
  induction fuel as [| fuel IH]; intros a n tr; [reflexivity |].
  simpl. apply IH.
Qed.

(** ** C2 *)

(** C2 (code_bug): a 304 is not a fatal failure after one attempt: the
    executor issues a second request, and returns its 200. *)
Theorem request_304_retried :
  _request_with_backoff default_config net_304_then_200 rnd_zero 5
  = Some (Returned 200 None, 2%nat, []).
Proof. reflexivity. Qed.

(** ** C3 *)







(** ** C4 *)




(** ** C5 *)


(** Two transport errors, then a 200, with [MAX_RETRIES = 2]. *)
Definition net_conn_timeout_200 (n : nat) : outcome :=
  match n with
  | O => Raised ConnectionError
  | 1%nat => Raised Timeout
  | _ => Response 200 None
  end.



(** ** C6 and C8 *)




(** C8: a [Retry-After] above [MAX_BACKOFF] (that can be slept) is used as
    the wait unclamped. *)
Theorem retry_after_uncapped (cfg : config) (net : nat -> outcome)
  (rnd : nat -> Q) (fuel a n : nat) (tr : list sleep) (st : Z) (s : string)
  (r : Z) :
  net n = Response st (Some s) -> st = 429 \/ st = 503 ->
  Z.of_nat a < MAX_RETRIES cfg ->
  _respect_retry_after (Some s) = Some r ->
  (MAX_BACKOFF cfg < inject_Z r)%Q ->
  (0 <= rnd n < 1)%Q -> wait_sleepable (inject_Z r) ->
  loop cfg net rnd (S fuel) a n tr
  = loop cfg net rnd fuel (S a) (S n) (backoff_sleep rnd tr n (inject_Z r))
  /\ (MAX_BACKOFF cfg < inject_Z r)%Q.
Proof.
  intros Hn Hst Ha Hr Hgt Hrnd Hsl. split; [| exact Hgt].
  assert (Hre : retryable (net n) = true)
    by (rewrite Hn; destruct Hst as [-> | ->]; reflexivity).
  rewrite (loop_step_retry cfg net rnd fuel a n tr Hre Ha).
  assert (Hw : wait_of cfg (net n) a = Ok (inject_Z r)).
  { rewrite Hn. unfold wait_of.
    replace ((st =? 429) || (st =? 503)) with true by (destruct Hst as [-> | ->]; reflexivity).
    rewrite Hr, (sleepable_fits_float r (retry_after_nonneg _ r Hr) Hsl). reflexivity. }
  rewrite Hw, (sleep_fits_jitter (inject_Z r) (rnd n) Hrnd Hsl). reflexivity.
Qed.

Lemma retry_after_uncapped_witness :
  loop default_config (net_always (Response 429 (Some "120"))) rnd_zero 1 0 0 []
  = loop default_config (net_always (Response 429 (Some "120"))) rnd_zero 0 1 1
      (backoff_sleep rnd_zero [] 0 (inject_Z 120))
  /\ (MAX_BACKOFF default_config < inject_Z 120)%Q.
Proof.
  apply (retry_after_uncapped default_config
           (net_always (Response 429 (Some "120"))) rnd_zero 0 0 0 [] 429 "120" 120).
  - reflexivity.
  - left. reflexivity.
  - simpl. lia.
  - reflexivity.
  - vm_compute. reflexivity.
  - split; vm_compute; [discriminate | reflexivity].
  - vm_compute. discriminate.
Defined.

(** ** C7 *)

Definition jitter_ok (s : sleep) : Prop :=
  (0 <= sleep_wait s -> 0 <= sleep_slept s <= sleep_wait s)%Q.

Lemma sleep_with_jitter_range (w u : Q) :
  (0 <= w)%Q -> (0 <= u < 1)%Q -> (0 <= _sleep_with_jitter w u <= w)%Q.
Proof.
  intros Hw [Hu0 Hu1]. unfold _sleep_with_jitter, uniform, py_max.
  destruct (Qlt_le_dec 0 w); split; nra.
Qed.

(** Every sleep of the trace is the jittered sleep of a wait the loop
    computed. *)
Lemma loop_trace_forall (cfg : config) (net : nat -> outcome) (rnd : nat -> Q)
  (P : sleep -> Prop) :
  (forall n a w, wait_of cfg (net n) a = Ok w ->
     P (mk_sleep w (_sleep_with_jitter w (rnd n)))) ->
  forall fuel a n tr0 r k tr,
  Forall P tr0 -> loop cfg net rnd fuel a n tr0 = Some (r, k, tr) -> Forall P tr.
Proof.
  intros HP fuel. induction fuel as [| fuel IH]; intros a n tr0 r k tr H0 Hl;
    [discriminate |].
  destruct (loop_cases cfg net rnd fuel a n tr0)
    as [(r' & Hl' & _) | [(_ & _ & w & Hw & Hl') | (_ & Hl')]];
    rewrite Hl' in Hl.
  - injection Hl as _ _ <-. exact H0.
  - eapply IH; [| exact Hl]. unfold backoff_sleep. apply Forall_app.
    split; [exact H0 |]. constructor; [apply (HP n a w Hw) | constructor].
  - eapply IH; [exact H0 | exact Hl].
Qed.

Lemma loop_sleeps_jitter_ok (cfg : config) (net : nat -> outcome) (rnd : nat -> Q) :
  (forall n, 0 <= rnd n < 1)%Q ->
  forall fuel a n tr0 r k tr,
  Forall jitter_ok tr0 ->
  loop cfg net rnd fuel a n tr0 = Some (r, k, tr) -> Forall jitter_ok tr.
Proof.
  intro Hrnd. apply loop_trace_forall.
  intros n a w _ Hw. simpl in *. apply sleep_with_jitter_range; [exact Hw | apply Hrnd].
Qed.

(** C7: the time slept by [_sleep_with_jitter w] lies in [[0, w]] for every
    draw of [random()] and every [w >= 0]; and every sleep the executor takes,
    on a computed backoff or on a [Retry-After] wait, is such a jittered
    sleep. *)
Theorem jitter_in_range :
  (forall w u : Q, (0 <= w)%Q -> (0 <= u < 1)%Q ->
     (0 <= _sleep_with_jitter w u <= w)%Q)
  /\ (forall cfg net rnd fuel r k tr,
        (forall n, 0 <= rnd n < 1)%Q ->
        _request_with_backoff cfg net rnd fuel = Some (r, k, tr) ->
        forall s, In s tr -> (0 <= sleep_wait s)%Q ->
        (0 <= sleep_slept s <= sleep_wait s)%Q).
Proof.
  split.
  - exact sleep_with_jitter_range.
  - intros cfg net rnd fuel r k tr Hrnd Hl s Hin.
    pose proof (loop_sleeps_jitter_ok cfg net rnd Hrnd fuel 0 0 [] r k tr
                  (Forall_nil _) Hl) as Hall.
    rewrite Forall_forall in Hall. exact (Hall s Hin).
Qed.

Lemma jitter_in_range_witness :
  (0 <= _sleep_with_jitter 5 (1 # 2) <= 5)%Q
  /\ exists tr,
       _request_with_backoff config_2 net_conn_timeout_200 rnd_half 3
       = Some (Returned 200 None, 3%nat, tr)
       /\ (forall s, In s tr ->
             (0 <= sleep_wait s)%Q -> (0 <= sleep_slept s <= sleep_wait s)%Q).
Proof.
  destruct jitter_in_range as [H1 H2]. split.
  - apply H1; [vm_compute; discriminate | split; vm_compute; [discriminate | reflexivity]].
  - eexists. split; [vm_compute; reflexivity |].
    apply (H2 config_2 net_conn_timeout_200 rnd_half 3%nat (Returned 200 None) 3%nat).
    + intro n. split; vm_compute; [discriminate | reflexivity].
    + vm_compute. reflexivity.
Defined.

(** ** C9 and C10 *)

Section MainFacts.
Variable user : Type.
Variable should_target : user -> bool.
Variable user_id : user -> option Z.
Variable list_users : nat -> option (list user).
Variable deactivate_ok : nat -> bool.
Variable print_ok : nat -> bool.
Variable MAX_PAGES : Z.

Definition only_gets (log : list call) : Prop :=
  forall c, In c log -> exists p, c = ListUsers p.

Lemma only_gets_app (l1 l2 : list call) :
  only_gets l1 -> only_gets l2 -> only_gets (l1 ++ l2).
Proof.
  intros H1 H2 c Hc. apply in_app_or in Hc. destruct Hc; auto.
Qed.

Lemma scan_only_gets (k : nat) : forall page to_act log,
  only_gets log ->
  match scan user should_target list_users MAX_PAGES k page to_act log with
  | ScanCrashed log' => only_gets log'
  | ScanDone _ _ log' => only_gets log'
  end.
Proof.
  induction k as [| k IH]; intros page to_act log Hlog; simpl; [exact Hlog |].
  destruct (Z.of_nat page <? MAX_PAGES); [| exact Hlog].
  assert (Hlog' : only_gets (log ++ [ListUsers page])).
  { apply only_gets_app; [exact Hlog |].
    intros c [<- | []]. exists page. reflexivity. }
  destruct (list_users page) as [[| u batch] |]; [exact Hlog' | apply IH; exact Hlog' | exact Hlog'].
Qed.

(** In dry-run the deactivation loop issues no request. *)
Lemma act_dry_run_log (i : nat) (to_act : list user) (acted failures : nat)
  (log : list call) :
  snd (act user user_id deactivate_ok print_ok true i to_act acted failures log) = log.
Proof.
  revert i acted failures.
  induction to_act as [| u r IH]; intros i acted failures; simpl; [reflexivity |].
  destruct (print_ok i); apply IH.
Qed.

End MainFacts.

(** C9: once the users are evaluated, the exit status is non-zero when the
    failure counter is, and zero when it is zero. *)
Theorem main_exit_status (user : Type) (should_target : user -> bool)
  (user_id : user -> option Z) (list_users : nat -> option (list user))
  (deactivate_ok print_ok : nat -> bool) (MAX_PAGES : Z) (DRY_RUN : bool)
  (code : Z) (acted failures : nat) (log : list call) :
  main user should_target user_id list_users deactivate_ok print_ok MAX_PAGES
    DRY_RUN true
  = Exited code acted failures log ->
  (failures <> 0%nat -> code <> 0) /\ (failures = 0%nat -> code = 0).
Proof.
  unfold main. simpl.
  destruct (scan user should_target list_users MAX_PAGES (Z.to_nat MAX_PAGES) 0 [] [])
    as [l | page to_act l]; [discriminate |].
  destruct (act user user_id deactivate_ok print_ok DRY_RUN 0 to_act 0 0 l)
    as [[ac f] l'].
  destruct (Nat.eqb_spec f 0) as [Hf | Hf]; intro H; injection H as <- <- <- <-.
  - split; [contradiction | reflexivity].
  - split; [discriminate | contradiction].
Qed.

(** Two selected users, the PUT for the first (id 1) fails: one failure,
    exit status 1. *)
Definition users_two (page : nat) : option (list Z) :=
  match page with O => Some [1; 2] | _ => Some [] end.

Lemma main_exit_status_witness :
  (1%nat <> 0%nat -> 1 <> 0) /\ (1%nat = 0%nat -> 1 = 0).
Proof.
  apply (main_exit_status Z (fun _ => true) (fun u => Some u) users_two
           (fun i => match i with O => false | _ => true end) (fun _ => true)
           100 false
           1 1%nat 1%nat [ListUsers 0; ListUsers 1; DeactivateUser (Some 1);
                          DeactivateUser (Some 2)]).
  vm_compute. reflexivity.
Defined.

(** C10: with [DRY_RUN] on, which it is when the variable is unset, [main]
    never reaches [deactivate_user]: every logical request it issues is a
    [list_users] GET. *)
Theorem dry_run_no_put :
  dry_run_of_env None = true
  /\ (forall (env : option string) (user : Type) (should_target : user -> bool)
        (user_id : user -> option Z) (list_users : nat -> option (list user))
        (deactivate_ok print_ok : nat -> bool) (MAX_PAGES : Z) (env_ok : bool),
        dry_run_of_env env = true ->
        forall c, In c (main_log (main user should_target user_id list_users
                                    deactivate_ok print_ok MAX_PAGES
                                    (dry_run_of_env env) env_ok)) ->
        call_method c = "GET").
Proof.
  split; [reflexivity |].
  intros env user should_target user_id list_users deactivate_ok print_ok
    MAX_PAGES env_ok Hdry c Hc.
  rewrite Hdry in Hc. unfold main in Hc.
  destruct env_ok; simpl in Hc; [| contradiction].
  pose proof (scan_only_gets user should_target list_users MAX_PAGES
                (Z.to_nat MAX_PAGES) 0 [] [] ltac:(intros ? [])) as Hs.
  destruct (scan user should_target list_users MAX_PAGES (Z.to_nat MAX_PAGES) 0 [] [])
    as [l | page to_act l].
  - destruct (Hs c Hc) as [p ->]. reflexivity.
  - pose proof (act_dry_run_log user user_id deactivate_ok print_ok 0 to_act 0 0 l)
      as Hlog.
    destruct (act user user_id deactivate_ok print_ok true 0 to_act 0 0 l)
      as [[ac f] l'].
    simpl in Hlog. subst l'.
    destruct (Nat.eqb f 0); simpl in Hc; destruct (Hs c Hc) as [p ->]; reflexivity.
Qed.

Lemma dry_run_no_put_witness :
  Forall (fun c => call_method c = "GET")
    (main_log (main Z (fun _ => true) (fun u => Some u) users_two
                 (fun _ => true) (fun _ => true) 100 (dry_run_of_env None) true)).
Proof.
  destruct dry_run_no_put as [_ H]. apply Forall_forall.
  apply (H None Z (fun _ => true) (fun u => Some u) users_two (fun _ => true)
           (fun _ => true) 100 true).
  reflexivity.
Defined.

(** * Further properties of the executor *)

(** The outcomes the loop classifies: a transport error, or a status that
    is 2xx, 4xx or 5xx (no 1xx and no 3xx). *)
Definition classified (o : outcome) : Prop :=
  match o with
  | Raised _ => True
  | Response st _ => 200 <= st < 300 \/ 400 <= st < 600
  end.

Lemma loop_bounded (cfg : config) (net : nat -> outcome) (rnd : nat -> Q) :
  (forall i, classified (net i)) ->
  forall fuel a n tr,
  (Z.to_nat (MAX_RETRIES cfg) - a < fuel)%nat ->
  exists r k tr', loop cfg net rnd fuel a n tr = Some (r, k, tr')
                  /\ (k <= n + S (Z.to_nat (MAX_RETRIES cfg) - a))%nat.
Proof.
  intros Hc fuel. induction fuel as [| fuel IH]; intros a n tr Hf; [lia |].
  destruct (loop_cases cfg net rnd fuel a n tr)
    as [(r & Hl & _) | [(Ha & _ & w & _ & Hl) | ((st & ra & Hn & Hnc) & _)]].
  - exists r, (S n), tr. split; [exact Hl | lia].
  - rewrite Hl. destruct (IH (S a) (S n) (backoff_sleep rnd tr n w))
      as (r & k & tr' & Hl' & Hk); [lia |].
    exists r, k, tr'. split; [exact Hl' | lia].
  - exfalso. specialize (Hc n). rewrite Hn in Hc. exact (Hnc Hc).
Qed.

Lemma loop_count_gt (cfg : config) (net : nat -> outcome) (rnd : nat -> Q) :
  forall fuel a n tr r k tr',
  loop cfg net rnd fuel a n tr = Some (r, k, tr') -> (n < k)%nat.
Proof.
  intro fuel. induction fuel as [| fuel IH]; intros a n tr r k tr' Hl;
    [discriminate |].
  destruct (loop_cases cfg net rnd fuel a n tr)
    as [(r' & Hl' & _) | [(_ & _ & w & _ & Hl') | (_ & Hl')]];
    rewrite Hl' in Hl.
  - injection Hl as _ <- _. lia.
  - apply IH in Hl. lia.
  - apply IH in Hl. lia.
Qed.

(** When every answer is a transport error or a 2xx, 4xx or 5xx status, a
    call of the executor ends (returns or raises) after at most
    [MAX_RETRIES + 1] requests (one request when [MAX_RETRIES <= 0]). *)
Theorem request_terminates_bounded (cfg : config) (net : nat -> outcome)
  (rnd : nat -> Q) (fuel : nat) :
  (forall i, classified (net i)) ->
  (Z.to_nat (MAX_RETRIES cfg) < fuel)%nat ->
  exists r k tr, _request_with_backoff cfg net rnd fuel = Some (r, k, tr)
                 /\ (1 <= k <= S (Z.to_nat (MAX_RETRIES cfg)))%nat.
Proof.
  intros Hc Hf. unfold _request_with_backoff.
  destruct (loop_bounded cfg net rnd Hc fuel 0 0 [] ltac:(lia))
    as (r & k & tr & Hl & Hk).
  exists r, k, tr. split; [exact Hl |].
  pose proof (loop_count_gt cfg net rnd fuel 0 0 [] r k tr Hl). lia.
Qed.

(** Three 500s, then a 404, with [MAX_RETRIES = 2]: the third 500 is raised. *)
Definition net_500s_404 (n : nat) : outcome :=
  match n with O | 1%nat | 2%nat => Response 500 None | _ => Response 404 None end.

Lemma request_terminates_bounded_witness :
  exists r k tr, _request_with_backoff config_2 net_500s_404 rnd_zero 3
                 = Some (r, k, tr) /\ (1 <= k <= 3)%nat.
Proof.
  apply (request_terminates_bounded config_2 net_500s_404 rnd_zero 3).
  - intro i. destruct i as [| [| [| i]]]; simpl; lia.
  - simpl. lia.
Defined.

Section TraceFacts.
Variable cfg : config.
Variable net : nat -> outcome.
Variable rnd : nat -> Q.

Lemma loop_sleep_count :
  forall fuel a n tr0 r k tr,
  loop cfg net rnd fuel a n tr0 = Some (r, k, tr) ->
  (List.length tr0 <= List.length tr
   /\ List.length tr - List.length tr0 <= Z.to_nat (MAX_RETRIES cfg) - a)%nat.
Proof.
  intro fuel. induction fuel as [| fuel IH]; intros a n tr0 r k tr Hl;
    [discriminate |].
  destruct (loop_cases cfg net rnd fuel a n tr0)
    as [(r' & Hl' & _) | [(Ha & _ & w & _ & Hl') | (_ & Hl')]];
    rewrite Hl' in Hl.
  - injection Hl as _ _ <-. lia.
  - apply IH in Hl. unfold backoff_sleep in Hl.
    rewrite length_app in Hl. simpl in Hl. lia.
  - apply IH in Hl. lia.
Qed.


End TraceFacts.

(** A call of the executor sleeps at most [MAX_RETRIES] times, whatever the
    answers (and never when [MAX_RETRIES <= 0]). *)
Theorem request_sleeps_at_most_max_retries (cfg : config) (net : nat -> outcome)
  (rnd : nat -> Q) (fuel : nat) (r : result) (k : nat) (tr : list sleep) :
  _request_with_backoff cfg net rnd fuel = Some (r, k, tr) ->
  (List.length tr <= Z.to_nat (MAX_RETRIES cfg))%nat.
Proof.
  intro Hl. apply loop_sleep_count in Hl. simpl in Hl. lia.
Qed.

Lemma request_sleeps_at_most_max_retries_witness :
  (List.length [mk_sleep (backoff_value config_2 0) (_sleep_with_jitter (backoff_value config_2 0) 0);
                mk_sleep (backoff_value config_2 1) (_sleep_with_jitter (backoff_value config_2 1) 0)]
   <= 2)%nat.
Proof.
  apply (request_sleeps_at_most_max_retries config_2 net_500s_404 rnd_zero 3
           (RaisedHTTPError 500) 3%nat).
  reflexivity.
Defined.

Lemma sleep_with_jitter_le_max (w u : Q) :
  (0 <= u < 1)%Q -> (0 <= _sleep_with_jitter w u <= py_max 0 w)%Q.
Proof.
  intros [Hu0 Hu1]. unfold _sleep_with_jitter, uniform, py_max.
  destruct (Qlt_le_dec 0 w); split; nra.
Qed.

Lemma compute_backoff_le_max (cfg : config) (a : nat) (w : Q) :
  _compute_backoff cfg a = Ok w -> (w <= MAX_BACKOFF cfg)%Q.
Proof.
  unfold _compute_backoff. destruct (int_fits_float _); [| discriminate].
  intro H. injection H as <-. apply backoff_value_le_max.
Qed.

(** When no 429 or 503 carries a usable [Retry-After], every time slept by
    the executor lies in [[0, MAX_BACKOFF]] (for [MAX_BACKOFF >= 0]). *)
Theorem sleeps_capped_without_retry_after (cfg : config) (net : nat -> outcome)
  (rnd : nat -> Q) (fuel : nat) (r : result) (k : nat) (tr : list sleep) :
  (0 <= MAX_BACKOFF cfg)%Q ->
  (forall n, 0 <= rnd n < 1)%Q ->
  (forall i st ra, net i = Response st ra -> st = 429 \/ st = 503 ->
                   _respect_retry_after ra = None) ->
  _request_with_backoff cfg net rnd fuel = Some (r, k, tr) ->
  forall s, In s tr -> (0 <= sleep_slept s <= MAX_BACKOFF cfg)%Q.
Proof.
  intros Hmax Hrnd Hra Hl.
  apply Forall_forall.
  refine (loop_trace_forall cfg net rnd
            (fun s => 0 <= sleep_slept s <= MAX_BACKOFF cfg)%Q _ fuel 0 0 [] r k tr
            (Forall_nil _) Hl).
  intros n a w Hw. simpl.
  assert (Hle : (w <= MAX_BACKOFF cfg)%Q).
  { revert Hw. unfold wait_of. destruct (net n) as [e | st ra] eqn:Hn;
      [apply compute_backoff_le_max |].
    destruct ((st =? 429) || (st =? 503)) eqn:E; [| apply compute_backoff_le_max].
    rewrite (Hra n st ra Hn); [apply compute_backoff_le_max |].
    revert E. zbool; discriminate || auto. }
  pose proof (sleep_with_jitter_le_max w (rnd n) (Hrnd n)) as [H0 H1].
  split; [exact H0 |]. unfold py_max in *.
  destruct (Qlt_le_dec 0 w); lra.
Qed.

Lemma sleeps_capped_without_retry_after_witness :
  Forall (fun s => (0 <= sleep_slept s <= MAX_BACKOFF config_2)%Q)
    [mk_sleep (backoff_value config_2 0) (_sleep_with_jitter (backoff_value config_2 0) (1 # 2));
     mk_sleep (backoff_value config_2 1) (_sleep_with_jitter (backoff_value config_2 1) (1 # 2))].
Proof.
  apply Forall_forall.
  apply (sleeps_capped_without_retry_after config_2 net_500s_404 rnd_half 3
           (RaisedHTTPError 500) 3%nat).
  - vm_compute. discriminate.
  - intro n. split; vm_compute; [discriminate | reflexivity].
  - intros i st ra Hn Hst. destruct i as [| [| [| i]]]; simpl in Hn;
      injection Hn as <- <-; destruct Hst; discriminate.
  - vm_compute. reflexivity.
Defined.



(** A 5xx other than 503 ignores [Retry-After]: when the attempt is below
    1024 and [MAX_BACKOFF] at most [2^63] ns, the wait is the computed
    backoff. *)
Theorem server_error_ignores_retry_after (cfg : config) (net : nat -> outcome)
  (rnd : nat -> Q) (fuel a n : nat) (tr : list sleep) (st : Z)
  (ra : option string) :
  net n = Response st ra -> 500 <= st < 600 -> st <> 503 ->
  Z.of_nat a < MAX_RETRIES cfg -> (a < 1024)%nat ->
  wait_sleepable (MAX_BACKOFF cfg) -> (0 <= rnd n < 1)%Q ->
  loop cfg net rnd (S fuel) a n tr
  = loop cfg net rnd fuel (S a) (S n)
      (backoff_sleep rnd tr n (backoff_value cfg a)).
Proof.
  intros Hn Hst H503 Ha Ha1024 Hmax Hrnd.
  assert (Hr : retryable (net n) = true) by (rewrite Hn; simpl; zbool).
  rewrite (loop_step_retry cfg net rnd fuel a n tr Hr Ha).
  assert (Hw : wait_of cfg (net n) a = Ok (backoff_value cfg a)).
  { rewrite Hn. unfold wait_of.
    replace ((st =? 429) || (st =? 503)) with false by zbool.
    apply compute_backoff_ok. exact Ha1024. }
  rewrite Hw, sleep_fits_jitter; [reflexivity | exact Hrnd |].
  apply backoff_sleepable. exact Hmax.
Qed.

Lemma server_error_ignores_retry_after_witness :
  loop default_config (net_always (Response 500 (Some "5"))) rnd_zero 1 0 0 []
  = loop default_config (net_always (Response 500 (Some "5"))) rnd_zero 0 1 1
      (backoff_sleep rnd_zero [] 0 (backoff_value default_config 0)).
Proof.
  apply (server_error_ignores_retry_after default_config
           (net_always (Response 500 (Some "5"))) rnd_zero 0 0 0 [] 500 (Some "5")).
  - reflexivity.
  - lia.
  - discriminate.
  - simpl. lia.
  - lia.
  - vm_compute. discriminate.
  - split; vm_compute; [discriminate | reflexivity].
Defined.
(** * Further properties of [main] *)

Open Scope list_scope.

Section ScanFacts.
Variable user : Type.
Variable should_target : user -> bool.
Variable list_users : nat -> option (list user).
Variable MAX_PAGES : Z.

Definition scan_result_log (e : scan_end user) : list call :=
  match e with ScanCrashed log => log | ScanDone _ _ log => log end.

Definition selected_from (bound : nat) (to_act : list user) : Prop :=
  forall u, In u to_act ->
    should_target u = true
    /\ exists p batch, (p < bound)%nat /\ list_users p = Some batch /\ In u batch.

Lemma scan_shape (k : nat) : forall page to_act log,
  log = map ListUsers (seq 0 page) ->
  selected_from page to_act ->
  let res := scan user should_target list_users MAX_PAGES k page to_act log in
  scan_result_log res = map ListUsers (seq 0 (List.length (scan_result_log res)))
  /\ (List.length (scan_result_log res) <= Nat.max page (Z.to_nat MAX_PAGES))%nat
  /\ match res with
     | ScanDone _ sel log' => selected_from (List.length log') sel
     | ScanCrashed _ => True
     end.
Proof.
  induction k as [| k IH]; intros page to_act log Hlog Hsel; simpl.
  - subst log. rewrite length_map, length_seq.
    split; [reflexivity | split; [lia | exact Hsel]].
  - destruct (Z.ltb_spec (Z.of_nat page) MAX_PAGES) as [Hp | Hp].
    2: { subst log. simpl. rewrite length_map, length_seq.
         split; [reflexivity | split; [lia | exact Hsel]]. }
    assert (Hlog' : log ++ [ListUsers page] = map ListUsers (seq 0 (S page))).
    { rewrite seq_S, map_app. subst log. reflexivity. }
    assert (Hlen : List.length (log ++ [ListUsers page]) = S page).
    { rewrite Hlog', length_map, length_seq. reflexivity. }
    assert (Hpm : (S page <= Z.to_nat MAX_PAGES)%nat)
      by (apply Nat2Z.inj_le; rewrite Z2Nat.id; lia).
    destruct (list_users page) as [[| u0 batch] |] eqn:Hb; simpl.
    + rewrite Hlen. split; [exact Hlog' | split; [lia |]].
      intros u Hu. destruct (Hsel u Hu) as [Hs (p & b & Hpb & Hb' & Hin)].
      split; [exact Hs |]. exists p, b. repeat split; [lia | exact Hb' | exact Hin].
    + assert (Hsel' : selected_from (S page)
                        (to_act ++ filter should_target (u0 :: batch))).
      { intros u Hu. apply in_app_or in Hu as [Hu | Hu].
        - destruct (Hsel u Hu) as [Hs (p & b & Hpb & Hb' & Hin)].
          split; [exact Hs |]. exists p, b. repeat split; [lia | exact Hb' | exact Hin].
        - apply filter_In in Hu as [Hin Hs]. split; [exact Hs |].
          exists page, (u0 :: batch). repeat split; [lia | exact Hb | exact Hin]. }
      specialize (IH (S page) _ _ Hlog' Hsel'). cbv zeta in IH.
      destruct IH as [A [B C]]. split; [exact A | split; [eapply Nat.le_trans; [exact B | lia] | exact C]].
    + rewrite Hlen. split; [exact Hlog' | split; [lia | exact I]].
Qed.

End ScanFacts.

(** The pagination loop of [main] requests pages 0, 1, 2, ... in order, at
    most [MAX_PAGES] of them (none when [MAX_PAGES <= 0]), and every user it
    selects passed [should_target] and came from one of the pages it
    fetched. *)
Theorem scan_pages_in_order (user : Type) (should_target : user -> bool)
  (list_users : nat -> option (list user)) (MAX_PAGES : Z) :
  let res := scan user should_target list_users MAX_PAGES (Z.to_nat MAX_PAGES) 0 [] [] in
  scan_result_log user res = map ListUsers (seq 0 (List.length (scan_result_log user res)))
  /\ (List.length (scan_result_log user res) <= Z.to_nat MAX_PAGES)%nat
  /\ match res with
     | ScanDone _ sel log => selected_from user should_target list_users (List.length log) sel
     | ScanCrashed _ => True
     end.
Proof.
  intro res.
  destruct (scan_shape user should_target list_users MAX_PAGES (Z.to_nat MAX_PAGES)
              0 [] [] eq_refl) as [H1 [H2 H3]].
  - intros u [].
  - split; [exact H1 | split; [exact H2 | exact H3]].
Qed.

(** Outside dry-run, the deactivation loop issues exactly one PUT per
    selected user, in order, after the requests already made, and every
    user counts once: the user at position [j] of [to_act] as acted on when
    its PUT returned and its [[OK ]] line was printed, as a failure
    otherwise (the PUT raised, or the print did). *)
Theorem act_one_put_per_user (user : Type) (user_id : user -> option Z)
  (deactivate_ok print_ok : nat -> bool) (to_act : list user) :
  forall i acted failures log,
  act user user_id deactivate_ok print_ok false i to_act acted failures log
  = (acted + List.length (filter (fun j => deactivate_ok j && print_ok j)
                            (seq i (List.length to_act))),
     failures + List.length (filter (fun j => negb (deactivate_ok j && print_ok j))
                               (seq i (List.length to_act))),
     log ++ map (fun u => DeactivateUser (user_id u)) to_act)%nat.
Proof.
  induction to_act as [| u r IH]; intros i acted failures log; simpl.
  - rewrite !Nat.add_0_r, app_nil_r. reflexivity.
  - destruct (deactivate_ok i && print_ok i); simpl; rewrite IH;
      rewrite ?Nat.add_succ_r, <- app_assoc; reflexivity.
Qed.

(** A PUT that returns but whose [[OK ]] line cannot be printed counts as
    a failure. *)
Example act_print_failure :
  act Z (fun u => Some u) (fun _ => true) (fun _ => false) false 0 [7] 0 0 []
  = (0%nat, 1%nat, [DeactivateUser (Some 7)]).
Proof. reflexivity. Qed.

(** A failed page fetch ends the process before any deactivation: the
    requests made are page GETs only, in dry-run or not. *)
Theorem crash_before_any_put (user : Type) (should_target : user -> bool)
  (user_id : user -> option Z) (list_users : nat -> option (list user))
  (deactivate_ok print_ok : nat -> bool) (MAX_PAGES : Z) (DRY_RUN env_ok : bool)
  (log : list call) :
  main user should_target user_id list_users deactivate_ok print_ok MAX_PAGES
    DRY_RUN env_ok
  = Crashed log ->
  Forall (fun c => call_method c = "GET") log.
Proof.
  intro H. unfold main in H. destruct env_ok; simpl in H; [| discriminate].
  pose proof (scan_only_gets user should_target list_users MAX_PAGES
                (Z.to_nat MAX_PAGES) 0 [] [] ltac:(intros ? [])) as Hs.
  destruct (scan user should_target list_users MAX_PAGES (Z.to_nat MAX_PAGES) 0 [] [])
    as [l | page to_act l].
  - injection H as <-. apply Forall_forall. intros c Hc.
    destruct (Hs c Hc) as [p ->]. reflexivity.
  - destruct (act user user_id deactivate_ok print_ok DRY_RUN 0 to_act 0 0 l)
      as [[ac f] l'].
    destruct (Nat.eqb f 0); discriminate.
Qed.

(** The first page fetch fails. *)
Definition users_fail (page : nat) : option (list Z) := None.

Lemma crash_before_any_put_witness :
  Forall (fun c => call_method c = "GET") [ListUsers 0].
Proof.
  apply (crash_before_any_put Z (fun _ => true) (fun u => Some u) users_fail
           (fun _ => true) (fun _ => true) 100 false true).
  vm_compute. reflexivity.
Defined.

(** * The selection predicate [should_target] *)

(** A JSON value as [r.json()] decodes it.  Arrays and objects are kept
    by their size only: [should_target] only tests their truth and hands
    them to [int()]. *)
Inductive json :=
| JNull
| JBool (b : bool)
| JInt (z : Z)
| JFloat (q : Q)          (* a finite float *)
| JInf (neg : bool)       (* json.loads accepts Infinity / -Infinity *)
| JNaN
| JStr (s : string)
| JArr (len : nat)
| JObj (len : nat).

(** A user record: [u.get(key)]. *)
Definition user_rec := string -> option json.

(** Python's truth value of [u.get(key)] ([None] when the key is missing). *)
Definition truthy (v : option json) : bool :=
  match v with
  | None | Some JNull => false
  | Some (JBool b) => b
  | Some (JInt z) => negb (z =? 0)
  | Some (JFloat q) => negb (Qeq_bool q 0)
  | Some (JInf _) | Some JNaN => true
  | Some (JStr s) => negb (String.eqb s "")
  | Some (JArr n) | Some (JObj n) => negb (Nat.eqb n 0)
  end.

(** [try: tl = int(tl) except (TypeError, ValueError): tl = None] for a
    [tl] that is not [None]; [int(inf)] raises [OverflowError], which is not
    caught. *)
Definition int_of_json (v : json) : raises (option Z) :=
  match v with
  | JNull => Ok None
  | JBool b => Ok (Some (if b then 1 else 0))
  | JInt z => Ok (Some z)
  | JFloat q => Ok (Some (Z.quot (Qnum q) (Zpos (Qden q))))
  | JInf _ => Exn "OverflowError"
  | JNaN => Ok None
  | JStr s => Ok (py_int s)
  | JArr _ | JObj _ => Ok None
  end.

(** [s.replace("Z", "+00:00")]. *)
Fixpoint replace_Z (l : list ascii) : list ascii :=
  match l with
  | [] => []
  | c :: r => if Ascii.eqb c "Z" then list_ascii_of_string "+00:00" ++ replace_Z r
              else c :: replace_Z r
  end.

(** A [datetime]: its wall-clock time in microseconds since
    0001-01-01T00:00 and its UTC offset in microseconds ([None]: naive). *)
Record datetime := mk_dt { wall : Z; tzoff : option Z }.

(** One day in microseconds; the last wall-clock time [datetime] can hold
    (9999-12-31T23:59:59.999999); the largest [timedelta] day count. *)
Definition DAY : Z := 86400 * 1000000.
Definition MAX_WALL : Z := 3652059 * DAY - 1.
Definition TIMEDELTA_MAX_DAYS : Z := 999999999.

Section Selection.
(** [datetime.fromisoformat] of the standard library ([None]: [ValueError]). *)
Variable fromisoformat : string -> option datetime.
(** The current time as a UTC instant, in microseconds since 0001-01-01. *)
Variable now_utc : Z.
Variable EXCLUDE_STAFF : bool.
Variable INCLUDE_TRUST_LEVELS : list Z.
Variable LAST_SEEN_BEFORE_DAYS : Z.

(** [parse_dt(s)]: [None] for a false [s]; a non-string has no [replace]. *)
Definition parse_dt (s : option json) : raises (option datetime) :=
  if negb (truthy s) then Ok None
  else match s with
       | Some (JStr str) =>
           match fromisoformat (string_of_list_ascii (replace_Z (list_ascii_of_string str))) with
           | None => Exn "ValueError"
           | Some dt =>
               match tzoff dt with
               | None => Ok (Some (mk_dt (wall dt) (Some 0)))  (* tzinfo=timezone.utc *)
               | Some _ => Ok (Some dt)
               end
           end
       | _ => Exn "AttributeError"
       end.

(** [now - timedelta(days=LAST_SEEN_BEFORE_DAYS)] in the time zone [off],
    as a wall-clock time. *)
Definition cutoff_wall (off : Z) : raises Z :=
  if Z.abs LAST_SEEN_BEFORE_DAYS >? TIMEDELTA_MAX_DAYS then Exn "OverflowError"
  else
    let c := now_utc + off - LAST_SEEN_BEFORE_DAYS * DAY in
    if (c <? 0) || (MAX_WALL <? c) then Exn "OverflowError" else Ok c.

Definition should_target (u : user_rec) : raises bool :=
  if negb (truthy (u "active")) then Ok false
  else if truthy (u "staged") || truthy (u "suspended") then Ok false
  else if EXCLUDE_STAFF && (truthy (u "admin") || truthy (u "moderator")) then Ok false
  else
    let tl := match u "trust_level" with
              | None | Some JNull => Ok None
              | Some v => int_of_json v
              end in
    match tl with
    | Exn e => Exn e
    | Ok None => Ok false
    | Ok (Some t) =>
        if negb (existsb (Z.eqb t) INCLUDE_TRUST_LEVELS) then Ok false
        else
          match parse_dt (u "last_seen_at") with
          | Exn e => Exn e
          | Ok None => Ok true                            (* never seen *)
          | Ok (Some ls) =>
              (* now and cutoff carry last_seen's tzinfo: walls compare *)
              let off := match tzoff ls with Some o => o | None => 0 end in
              match cutoff_wall off with
              | Exn e => Exn e
              | Ok c => Ok (wall ls <? c)
              end
          end
    end.

End Selection.

Section SelectionFacts.
Variable fromisoformat : string -> option datetime.
Variable now_utc : Z.
Variable EXCLUDE_STAFF : bool.
Variable INCLUDE_TRUST_LEVELS : list Z.
Variable LAST_SEEN_BEFORE_DAYS : Z.

(** The conditions before the last-seen test: active, neither staged nor
    suspended, not staff when staff is excluded, and a trust level that
    [int()] reads as one of [INCLUDE_TRUST_LEVELS]. *)
Definition eligible (u : user_rec) : Prop :=
  truthy (u "active") = true /\ truthy (u "staged") = false
  /\ truthy (u "suspended") = false
  /\ (EXCLUDE_STAFF = true -> truthy (u "admin") = false /\ truthy (u "moderator") = false)
  /\ exists v t, u "trust_level" = Some v /\ int_of_json v = Ok (Some t)
                 /\ In t INCLUDE_TRUST_LEVELS.

Lemma should_target_eligible (u : user_rec) :
  eligible u ->
  should_target fromisoformat now_utc EXCLUDE_STAFF INCLUDE_TRUST_LEVELS
    LAST_SEEN_BEFORE_DAYS u
  = match parse_dt fromisoformat (u "last_seen_at") with
    | Exn e => Exn e
    | Ok None => Ok true
    | Ok (Some ls) =>
        let off := match tzoff ls with Some o => o | None => 0 end in
        match cutoff_wall now_utc LAST_SEEN_BEFORE_DAYS off with
        | Exn e => Exn e
        | Ok c => Ok (wall ls <? c)
        end
    end.
Proof.
  intros (Ha & Hst & Hsu & Hstaff & v & t & Hv & Ht & Hin).
  unfold should_target. rewrite Ha, Hst, Hsu. simpl.
  assert (Hs : EXCLUDE_STAFF && (truthy (u "admin") || truthy (u "moderator")) = false).
  { destruct EXCLUDE_STAFF; [| reflexivity].
    destruct (Hstaff eq_refl) as [-> ->]. reflexivity. }
  rewrite Hs, Hv.
  destruct v; rewrite ?Ht; try discriminate;
  (assert (He : existsb (Z.eqb t) INCLUDE_TRUST_LEVELS = true)
     by (apply existsb_exists; exists t; split; [exact Hin | apply Z.eqb_refl]);
   rewrite He; reflexivity).
Qed.

End SelectionFacts.

Lemma trust_level_read (o : option json) :
  match o with
  | None | Some JNull => Ok None
  | Some v => int_of_json v
  end
  = match o with None => Ok None | Some v => int_of_json v end.
Proof. destruct o as [[] |]; reflexivity. Qed.

(** A user [should_target] selects is active, neither staged nor suspended,
    not an admin or moderator when [EXCLUDE_STAFF] is on, and has a trust
    level that [int()] reads as one of [INCLUDE_TRUST_LEVELS]. *)
Theorem should_target_sound (fromisoformat : string -> option datetime)
  (now_utc : Z) (EXCLUDE_STAFF : bool) (INCLUDE_TRUST_LEVELS : list Z)
  (LAST_SEEN_BEFORE_DAYS : Z) (u : user_rec) :
  should_target fromisoformat now_utc EXCLUDE_STAFF INCLUDE_TRUST_LEVELS
    LAST_SEEN_BEFORE_DAYS u = Ok true ->
  eligible EXCLUDE_STAFF INCLUDE_TRUST_LEVELS u.
Proof.
  intro H. unfold should_target in H.
  destruct (truthy (u "active")) eqn:Ha; [| discriminate]. simpl in H.
  destruct (truthy (u "staged")) eqn:Hst; [discriminate |].
  destruct (truthy (u "suspended")) eqn:Hsu; [discriminate |]. simpl in H.
  destruct (EXCLUDE_STAFF && (truthy (u "admin") || truthy (u "moderator"))) eqn:Hs;
    [discriminate |].
  rewrite trust_level_read in H.
  destruct (u "trust_level") as [v |] eqn:Hv; [| discriminate].
  destruct (int_of_json v) as [[t |] | e] eqn:Ht; try discriminate.
  destruct (existsb (Z.eqb t) INCLUDE_TRUST_LEVELS) eqn:He; [| discriminate].
  split; [exact Ha |]. split; [exact Hst |]. split; [exact Hsu |]. split.
  - intro Hx. rewrite Hx in Hs. simpl in Hs.
    apply orb_false_iff in Hs. exact Hs.
  - exists v, t. split; [exact Hv |]. split; [exact Ht |].
    apply existsb_exists in He as (t' & Hin & Heq).
    apply Z.eqb_eq in Heq. subst t'. exact Hin.
Qed.

(** A trust-level-1 admin who is active, with last_seen_at missing. *)
Definition user_admin_tl1 (k : string) : option json :=
  if String.eqb k "active" then Some (JBool true)
  else if String.eqb k "admin" then Some (JBool true)
  else if String.eqb k "trust_level" then Some (JInt 1)
  else None.

Definition no_iso (s : string) : option datetime := None.

Lemma should_target_sound_witness :
  eligible false [0; 1; 2; 3; 4] user_admin_tl1.
Proof.
  apply (should_target_sound no_iso 0 false [0; 1; 2; 3; 4] 365 user_admin_tl1).
  vm_compute. reflexivity.
Defined.

(** An eligible user whose [last_seen_at] is missing, null, false or empty
    (never seen) is selected. *)
Theorem should_target_never_seen (fromisoformat : string -> option datetime)
  (now_utc : Z) (EXCLUDE_STAFF : bool) (INCLUDE_TRUST_LEVELS : list Z)
  (LAST_SEEN_BEFORE_DAYS : Z) (u : user_rec) :
  eligible EXCLUDE_STAFF INCLUDE_TRUST_LEVELS u ->
  truthy (u "last_seen_at") = false ->
  should_target fromisoformat now_utc EXCLUDE_STAFF INCLUDE_TRUST_LEVELS
    LAST_SEEN_BEFORE_DAYS u = Ok true.
Proof.
  intros He Hl. rewrite (should_target_eligible _ _ _ _ _ u He).
  unfold parse_dt. rewrite Hl. reflexivity.
Qed.

Lemma should_target_never_seen_witness :
  should_target no_iso 0 false [0; 1; 2; 3; 4] 365 user_admin_tl1 = Ok true.
Proof.
  apply should_target_never_seen.
  - split; [reflexivity |]. split; [reflexivity |]. split; [reflexivity |].
    split; [discriminate |]. exists (JInt 1), 1. split; [reflexivity |].
    split; [reflexivity | simpl; tauto].
  - reflexivity.
Defined.

(** For an eligible user whose [last_seen_at] parses, the decision compares
    UTC instants: the user is selected exactly when the last-seen instant
    (wall time minus UTC offset, a naive time read as UTC) is strictly
    before [now - LAST_SEEN_BEFORE_DAYS] days, whatever time zone the
    timestamp carries (when the cutoff stays within [datetime]'s range). *)
Theorem should_target_cutoff_utc (fromisoformat : string -> option datetime)
  (now_utc : Z) (EXCLUDE_STAFF : bool) (INCLUDE_TRUST_LEVELS : list Z)
  (LAST_SEEN_BEFORE_DAYS : Z) (u : user_rec) (s : string) (d : datetime) :
  eligible EXCLUDE_STAFF INCLUDE_TRUST_LEVELS u ->
  u "last_seen_at" = Some (JStr s) -> s <> "" ->
  fromisoformat (string_of_list_ascii (replace_Z (list_ascii_of_string s))) = Some d ->
  let off := match tzoff d with Some o => o | None => 0 end in
  Z.abs LAST_SEEN_BEFORE_DAYS <= TIMEDELTA_MAX_DAYS ->
  0 <= now_utc + off - LAST_SEEN_BEFORE_DAYS * DAY <= MAX_WALL ->
  should_target fromisoformat now_utc EXCLUDE_STAFF INCLUDE_TRUST_LEVELS
    LAST_SEEN_BEFORE_DAYS u
  = Ok (wall d - off <? now_utc - LAST_SEEN_BEFORE_DAYS * DAY).
Proof.
  intros He Hl Hs Hd off Hdays Hc.
  rewrite (should_target_eligible _ _ _ _ _ u He).
  unfold parse_dt. rewrite Hl.
  assert (Ht : truthy (Some (JStr s)) = true).
  { simpl. destruct (String.eqb_spec s ""); [contradiction | reflexivity]. }
  rewrite Ht. simpl negb. cbv iota. rewrite Hd.
  assert (E1 : (Z.abs LAST_SEEN_BEFORE_DAYS >? TIMEDELTA_MAX_DAYS) = false)
    by (rewrite Z.gtb_ltb; apply Z.ltb_ge; lia).
  subst off. unfold cutoff_wall. rewrite E1.
  destruct (tzoff d) as [o |] eqn:Hz; simpl; rewrite ?Hz;
    do 2 (repeat match goal with
                 | |- context [?x <? ?y] => destruct (Z.ltb_spec x y)
                 end; simpl); first [reflexivity | lia].
Qed.

(** Last seen at wall time 0 in UTC+1 (one hour before 0 UTC), now at
    400 days (UTC), cutoff 365 days: selected. *)
Definition user_seen_tl1 (k : string) : option json :=
  if String.eqb k "active" then Some (JBool true)
  else if String.eqb k "trust_level" then Some (JInt 1)
  else if String.eqb k "last_seen_at" then Some (JStr "0001-01-01T00:00:00+01:00")
  else None.

Definition iso_plus1 (s : string) : option datetime :=
  Some (mk_dt 0 (Some 3600000000)).

Lemma should_target_cutoff_utc_witness :
  should_target iso_plus1 (400 * DAY) true [0; 1; 2; 3; 4] 365 user_seen_tl1
  = Ok (0 - 3600000000 <? 400 * DAY - 365 * DAY).
Proof.
  apply (should_target_cutoff_utc iso_plus1 (400 * DAY) true [0; 1; 2; 3; 4] 365
           user_seen_tl1 "0001-01-01T00:00:00+01:00" (mk_dt 0 (Some 3600000000))).
  - split; [reflexivity |]. split; [reflexivity |]. split; [reflexivity |].
    split; [intros _; split; reflexivity |]. exists (JInt 1), 1.
    split; [reflexivity |]. split; [reflexivity | simpl; tauto].
  - reflexivity.
  - discriminate.
  - reflexivity.
  - unfold TIMEDELTA_MAX_DAYS. simpl. lia.
  - unfold DAY, MAX_WALL. simpl. lia.
Defined.

(** * Request URLs *)

From Stdlib Require Import DecimalString.

(** [str(n)] for a natural number. *)
Definition py_str_nat (n : nat) : string := NilZero.string_of_uint (Nat.to_uint n).

(** [s.rstrip("/")]. *)
Fixpoint drop_slashes (l : list ascii) : list ascii :=
  match l with
  | c :: r => if Ascii.eqb c "/" then drop_slashes r else l
  | [] => []
  end.

Definition rstrip_slash (s : string) : string :=
  string_of_list_ascii (rev (drop_slashes (rev (list_ascii_of_string s)))).

(** [BASE_URL = os.environ["DISCOURSE_BASE_URL"].rstrip("/")]. *)
Definition BASE_URL (env_base : string) : string := rstrip_slash env_base.

(** The URL [list_users(filter_name, page)] requests. *)
Definition list_users_url (base filter_name : string) (page : nat) : string :=
  base ++ "/admin/users/list/" ++ filter_name ++ ".json?page=" ++ py_str_nat page.

(** The URL [deactivate_user(user_id)] requests, for an integer id. *)
Definition deactivate_url (base : string) (user_id : Z) : string :=
  base ++ "/admin/users/" ++ (if user_id <? 0 then "-" else "")
  ++ py_str_nat (Z.to_nat (Z.abs user_id)) ++ "/deactivate.json".

Lemma list_ascii_of_string_append (a b : string) :
  list_ascii_of_string (a ++ b) = (list_ascii_of_string a ++ list_ascii_of_string b)%list.
Proof. induction a as [| c a IH]; simpl; [reflexivity | rewrite IH; reflexivity]. Qed.

Lemma drop_slashes_repeat (k : nat) (l : list ascii) :
  drop_slashes (repeat "/"%char k ++ l)%list = drop_slashes l.
Proof. induction k as [| k IH]; simpl; [reflexivity | exact IH]. Qed.

(** Trailing slashes on [DISCOURSE_BASE_URL] do not change the URLs the
    client requests: [BASE_URL] is the same with or without them. *)
Theorem base_url_trailing_slashes (env_base : string) (k : nat) :
  BASE_URL (env_base ++ string_of_list_ascii (repeat "/"%char k)) = BASE_URL env_base.
Proof.
  unfold BASE_URL, rstrip_slash.
  rewrite list_ascii_of_string_append, list_ascii_of_string_of_list_ascii.
  rewrite rev_app_distr, rev_repeat, drop_slashes_repeat. reflexivity.
Qed.

Example urls_sample :
  list_users_url (BASE_URL "https://forum.example//") "active" 12
  = "https://forum.example/admin/users/list/active.json?page=12"
  /\ deactivate_url (BASE_URL "https://forum.example/") 42
     = "https://forum.example/admin/users/42/deactivate.json".
Proof. split; reflexivity. Qed.
